(** * dagster-airlift: serialized Airflow definitions data

    A shallow embedding of
    [dagster_airlift/core/serialization/serialized_data.py]: the records
    that are cached between calls to the Airflow API, their derived
    properties, and the facts the design document states about them.

    Python dictionaries and mappings are finite maps ([gmap]), Python sets
    are finite sets ([gset]), property accessors that may raise live in a
    small exception monad. *)

From stdpp Require Import gmap strings list fin_maps.

Set Warnings "-register-all".
Set Default Proof Using "Type".

(** ** Python values, exceptions *)

(** The values a [Dict[str, Any]] reported by the Airflow REST API can
    hold (the payload is JSON). *)
Inductive PyVal : Type :=
  | PyNone
  | PyBool (b : bool)
  | PyInt (n : Z)
  | PyStr (s : string)
  | PyList (items : list PyVal)
  | PyDict (entries : gmap string PyVal).

(** [isinstance(v, str)]. *)
Definition is_str (v : PyVal) : bool :=
  match v with
  | PyStr _ => true
  | _ => false
  end.

(** The exceptions the module can raise: [KeyError] from subscripting a
    dict, [CheckError] from [dagster._check] (its message is left out). *)
Inductive PyError : Type :=
  | KeyError (key : string)
  | CheckError.

Inductive PyResult (A : Type) : Type :=
  | Return (a : A)
  | Raise (e : PyError).

Arguments Return {A} a.
Arguments Raise {A} e.

Definition bind {A B : Type} (r : PyResult A) (k : A → PyResult B) : PyResult B :=
  match r with
  | Return a => k a
  | Raise e => Raise e
  end.

Notation "x ←! r ; k" := (bind r (λ x, k))
  (at level 100, r at next level, right associativity, only parsing).

(** [d[key]] on a dict with string keys. *)
Definition getitem {V : Type} (d : gmap string V) (key : string) : PyResult V :=
  match d !! key with
  | Some v => Return v
  | None => Raise (KeyError key)
  end.

(** An f-string whose replacement fields are all [str]: the pieces are
    joined without a separator. *)
Definition fstring (pieces : list string) : string := String.concat "" pieces.

Module check.

(** Modelled from the spec: [check.is_list(obj, of_type)] belongs to
    [dagster._check], which is not among the sources.  The design document
    describes it as the runtime type assertion behind
    [downstream_task_ids]: the value must be a list and each element must
    have the element type, anything else is a failure; on success the
    object itself is handed back. *)
Definition is_list (obj : PyVal) (of_type : PyVal → bool) : PyResult PyVal :=
  match obj with
  | PyList items =>
      if forallb of_type items then Return obj else Raise CheckError
  | _ => Raise CheckError
  end.

End check.

(** [AssetKey] is declared by dagster core, outside these sources: a path
    of strings, compared and hashed structurally. *)
Abbreviation AssetKey := (list string).

(** ** The records *)

Module TaskInfo.

Record t : Type := mk {
  webserver_url : string;
  dag_id : string;
  task_id : string;
  metadata : gmap string PyVal;
}.

Definition dag_url (self : t) : PyResult string :=
  Return (fstring [webserver_url self; "/dags/"; dag_id self]).

(** A [cached_property]: the record is immutable, so the cached value is
    the value of this pure function. *)
Definition downstream_task_ids (self : t) : PyResult PyVal :=
  v ←! getitem (metadata self) "downstream_task_ids";
  check.is_list v is_str.

End TaskInfo.

Module DagInfo.

Record t : Type := mk {
  webserver_url : string;
  dag_id : string;
  metadata : gmap string PyVal;
}.

Definition url (self : t) : PyResult string :=
  Return (fstring [webserver_url self; "/dags/"; dag_id self]).

Definition file_token (self : t) : PyResult PyVal :=
  getitem (metadata self) "file_token".

End DagInfo.

Module TaskHandle.

(** A [NamedTuple] of two strings. *)
Record t : Type := mk {
  dag_id : string;
  task_id : string;
}.

(** [==] is the one of [tuple]: the items are compared pairwise. *)
Definition eqb (a b : t) : bool :=
  String.eqb (dag_id a) (dag_id b) && String.eqb (task_id a) (task_id b).

Section Hash.
(** The interpreter's hash of a [str] (seeded per process) and the way
    [tuple.__hash__] mixes the hashes of the items. *)
Context (hash_str : string → Z) (hash_tuple : list Z → Z).

(** [hash] is the one of [tuple]: a function of the items' hashes. *)
Definition hash (self : t) : Z :=
  hash_tuple [hash_str (dag_id self); hash_str (task_id self)].

(** Looking a handle up in a dict: an entry answers for [key] when its
    key has the same hash and compares equal with [==].  The entries
    are in insertion order. *)
Definition dict_get {V : Type} (entries : list (t * V)) (key : t) : option V :=
  snd <$> List.find (λ e, Z.eqb (hash e.1) (hash key) && eqb e.1 key) entries.
End Hash.

End TaskHandle.

Module MappedAirflowTaskData.

Record t : Type := mk {
  task_info : TaskInfo.t;
  task_handle : TaskHandle.t;
  migrated : option bool;
}.

(** Construction.  [@record] derives the constructor from the annotated
    fields alone: each argument is checked against its annotation (here:
    the Rocq types) and stored.  A check that relates two fields would
    have to be written in the class body, which declares the three
    fields and nothing else. *)
Definition new (task_info : TaskInfo.t) (task_handle : TaskHandle.t)
    (migrated : option bool) : PyResult t :=
  Return (mk task_info task_handle migrated).

End MappedAirflowTaskData.

Module SerializedTaskHandleData.

Record t : Type := mk {
  migration_state : option bool;
  asset_keys_in_task : gset AssetKey;
}.

End SerializedTaskHandleData.

Module SerializedDagData.

Record t : Type := mk {
  dag_id : string;
  task_handle_data : gmap string SerializedTaskHandleData.t;
  dag_info : DagInfo.t;
  source_code : string;
  leaf_asset_keys : gset AssetKey;
  task_infos : gmap string TaskInfo.t;
}.

End SerializedDagData.

Module KeyScopedDataItem.

Record t : Type := mk {
  asset_key : AssetKey;
  mapped_tasks : list MappedAirflowTaskData.t;
}.

End KeyScopedDataItem.

Module SerializedAirflowDefinitionsData.

Record t : Type := mk {
  key_scoped_data_items : list KeyScopedDataItem.t;
  dag_datas : gmap string SerializedDagData.t;
}.

(** The dict comprehension
    [{item.asset_key: item.mapped_tasks for item in self.key_scoped_data_items}]:
    one pass from the first item to the last, each item stored under its
    key in the dict built so far.  (A [cached_property] of an immutable
    record: the cached dict is the value of this function.) *)
Definition all_mapped_tasks (self : t)
    : gmap AssetKey (list MappedAirflowTaskData.t) :=
  foldl
    (λ d item,
       <[KeyScopedDataItem.asset_key item := KeyScopedDataItem.mapped_tasks item]> d)
    ∅ (key_scoped_data_items self).

(** The class has no method that looks a dag up: the snapshot of a dag is
    read from the [dag_datas] field by subscript, [self.dag_datas[dag_id]],
    which is [getitem] on that mapping. *)

End SerializedAirflowDefinitionsData.

(** ** Sample data: the [etl_dag] of the design document *)

Module Sample.

Definition extract : TaskInfo.t :=
  TaskInfo.mk "http://airflow:8080" "etl_dag" "extract"
    {[ "downstream_task_ids" := PyList [PyStr "load"] ]}.

Definition load : TaskInfo.t :=
  TaskInfo.mk "http://airflow:8080" "etl_dag" "load"
    {[ "downstream_task_ids" := PyList [] ]}.

(** A task whose metadata carries none of the expected keys. *)
Definition bare : TaskInfo.t :=
  TaskInfo.mk "http://airflow:8080" "etl_dag" "load" ∅.

Definition load_handle : TaskHandle.t := TaskHandle.mk "etl_dag" "load".

(** A handle that names another task of another dag. *)
Definition other_handle : TaskHandle.t := TaskHandle.mk "ml_dag" "train".

Definition load_binding : MappedAirflowTaskData.t :=
  MappedAirflowTaskData.mk load load_handle (Some false).

Definition extract_binding : MappedAirflowTaskData.t :=
  MappedAirflowTaskData.mk extract (TaskHandle.mk "etl_dag" "extract") None.

Definition table : AssetKey := ["warehouse"; "table"].
Definition staging : AssetKey := ["warehouse"; "staging"].

(** A dag whose [file_token] is reported as a number. *)
Definition numeric_token_dag : DagInfo.t :=
  DagInfo.mk "http://airflow:8080" "etl_dag" {[ "file_token" := PyInt 5 ]}.

Definition etl_dag_info : DagInfo.t :=
  DagInfo.mk "http://airflow:8080" "etl_dag" {[ "file_token" := PyStr "Ii9ldGwucHki" ]}.

Definition etl_dag : SerializedDagData.t :=
  SerializedDagData.mk "etl_dag"
    {[ "extract" := SerializedTaskHandleData.mk None ∅;
       "load" := SerializedTaskHandleData.mk (Some false) {[ table ]} ]}
    etl_dag_info
    "with DAG('etl_dag'): ..."
    {[ table ]}
    {[ "extract" := extract; "load" := load ]}.

(** [table] is listed twice, [staging] once and with no task. *)
Definition items : list KeyScopedDataItem.t :=
  [ KeyScopedDataItem.mk table [extract_binding];
    KeyScopedDataItem.mk staging [];
    KeyScopedDataItem.mk table [load_binding] ].

Definition envelope : SerializedAirflowDefinitionsData.t :=
  SerializedAirflowDefinitionsData.mk items {[ "etl_dag" := etl_dag ]}.

(** Stand-ins for the interpreter's hashes, to run [TaskHandle.hash]. *)
Definition hash_str (s : string) : Z := Z.of_nat (String.length s).
Definition hash_tuple (hs : list Z) : Z := foldl (λ acc h, 31 * acc + h)%Z 7%Z hs.

End Sample.

(** * Properties *)

(** ** Strings and f-strings *)

Lemma append_assoc (a b c : string) : (a +:+ b) +:+ c = a +:+ (b +:+ c).
Proof.
  induction a as [|ch a IH]; [done|].
  change (String ch ((a +:+ b) +:+ c) = String ch (a +:+ (b +:+ c))).
  by rewrite IH.
Qed.

Lemma fstring_three (a b c : string) : fstring [a; b; c] = (a +:+ b) +:+ c.
Proof. rewrite append_assoc. reflexivity. Qed.

(** ** Subscripting the metadata *)

Lemma getitem_missing {V : Type} (d : gmap string V) (key : string) :
  d !! key = None → getitem d key = Raise (KeyError key).
Proof. intros Hd. unfold getitem. by rewrite Hd. Qed.

Lemma getitem_present {V : Type} (d : gmap string V) (key : string) (v : V) :
  d !! key = Some v → getitem d key = Return v.
Proof. intros Hd. unfold getitem. by rewrite Hd. Qed.

(** A list passes the element check exactly when it is a list of [str]. *)
Lemma forallb_is_str (items : list PyVal) :
  forallb is_str items = true ↔ ∃ ids : list string, items = PyStr <$> ids.
Proof.
  induction items as [|v items IH]; simpl.
  - split; [by exists [] | done].
  - rewrite andb_true_iff, IH. split.
    + intros [Hv [ids ->]]. destruct v; try discriminate Hv.
      by exists (s :: ids).
    + intros [[|id ids] Heq]; [discriminate Heq|].
      injection Heq as -> ->. split; [done | by exists ids].
Qed.

Lemma is_list_str_ok (ids : list string) :
  check.is_list (PyList (PyStr <$> ids)) is_str = Return (PyList (PyStr <$> ids)).
Proof.
  unfold check.is_list.
  assert (forallb is_str (PyStr <$> ids) = true) as ->; [|done].
  apply forallb_is_str. by exists ids.
Qed.

Lemma is_list_str_fails (v : PyVal) :
  (∀ ids : list string, v ≠ PyList (PyStr <$> ids)) →
  check.is_list v is_str = Raise CheckError.
Proof.
  intros Hv. destruct v as [| | | |items|]; try done. simpl.
  destruct (forallb is_str items) eqn:Hall; [|done].
  apply forallb_is_str in Hall as [ids ->]. by destruct (Hv ids).
Qed.

Lemma downstream_task_ids_ok (t : TaskInfo.t) (ids : list string) :
  TaskInfo.metadata t !! "downstream_task_ids" = Some (PyList (PyStr <$> ids)) →
  TaskInfo.downstream_task_ids t = Return (PyList (PyStr <$> ids)).
Proof.
  intros Hmd. unfold TaskInfo.downstream_task_ids.
  rewrite (getitem_present _ _ _ Hmd). simpl. apply is_list_str_ok.
Qed.

Lemma file_token_missing (d : DagInfo.t) :
  DagInfo.metadata d !! "file_token" = None →
  DagInfo.file_token d = Raise (KeyError "file_token").
Proof. apply getitem_missing. Qed.

Lemma file_token_present (d : DagInfo.t) (v : PyVal) :
  DagInfo.metadata d !! "file_token" = Some v →
  DagInfo.file_token d = Return v.
Proof. apply getitem_present. Qed.

(** The sample records behave as the design document tells. *)

Example extract_downstream :
  TaskInfo.downstream_task_ids Sample.extract = Return (PyList [PyStr "load"]).
Proof. reflexivity. Qed.

Example load_dag_url :
  TaskInfo.dag_url Sample.load = Return "http://airflow:8080/dags/etl_dag".
Proof. reflexivity. Qed.

Example etl_file_token :
  DagInfo.file_token Sample.etl_dag_info = Return (PyStr "Ii9ldGwucHki").
Proof. reflexivity. Qed.

Example table_bindings :
  SerializedAirflowDefinitionsData.all_mapped_tasks Sample.envelope !! Sample.table
  = Some [Sample.load_binding].
Proof. vm_compute. reflexivity. Qed.

(** ** URLs *)

(** C7. For every task record [t], [t.dag_url] is the web server URL
    followed by ["/dags/"] followed by [t.dag_id]; for every dag record
    [d], [d.url] is built the same way from [d]'s own fields. *)
Theorem url_is_concatenation :
  (∀ t : TaskInfo.t,
     TaskInfo.dag_url t
     = Return ((TaskInfo.webserver_url t +:+ "/dags/") +:+ TaskInfo.dag_id t))
  ∧ (∀ d : DagInfo.t,
       DagInfo.url d
       = Return ((DagInfo.webserver_url d +:+ "/dags/") +:+ DagInfo.dag_id d)).
Proof.
  split; intros r.
  - unfold TaskInfo.dag_url. by rewrite fstring_three.
  - unfold DagInfo.url. by rewrite fstring_three.
Qed.

(** C10. The two URL accessors never raise and do not read the metadata:
    whatever the metadata mapping holds (the empty mapping included, on
    which [downstream_task_ids] and [file_token] raise), the URL is
    returned, and two records that differ only in their metadata have the
    same URL. *)
Theorem url_total_and_metadata_independent :
  (∀ (w dag task : string) (md md' : gmap string PyVal),
     (∃ u, TaskInfo.dag_url (TaskInfo.mk w dag task md) = Return u)
     ∧ TaskInfo.dag_url (TaskInfo.mk w dag task md)
       = TaskInfo.dag_url (TaskInfo.mk w dag task md')
     ∧ (∃ u, TaskInfo.dag_url (TaskInfo.mk w dag task ∅) = Return u
             ∧ TaskInfo.downstream_task_ids (TaskInfo.mk w dag task ∅)
               = Raise (KeyError "downstream_task_ids")))
  ∧ (∀ (w dag : string) (md md' : gmap string PyVal),
       (∃ u, DagInfo.url (DagInfo.mk w dag md) = Return u)
       ∧ DagInfo.url (DagInfo.mk w dag md) = DagInfo.url (DagInfo.mk w dag md')
       ∧ (∃ u, DagInfo.url (DagInfo.mk w dag ∅) = Return u
               ∧ DagInfo.file_token (DagInfo.mk w dag ∅)
                 = Raise (KeyError "file_token"))).
Proof.
  split; intros; (split; [by eexists|]); (split; [done|]);
    eexists; (split; [done|]).
  - unfold TaskInfo.downstream_task_ids. by rewrite getitem_missing.
  - by apply file_token_missing.
Qed.

(** ** Required metadata keys *)

(** C3. When the metadata of a task record has no ["downstream_task_ids"]
    entry, or has one whose value is not a list of strings, reading
    [downstream_task_ids] raises: [KeyError] for the missing key,
    [CheckError] for the wrong type.  No value is returned. *)
Theorem downstream_task_ids_fails (t : TaskInfo.t) :
  (∀ ids : list string,
     TaskInfo.metadata t !! "downstream_task_ids" ≠ Some (PyList (PyStr <$> ids))) →
  (TaskInfo.metadata t !! "downstream_task_ids" = None
   ∧ TaskInfo.downstream_task_ids t = Raise (KeyError "downstream_task_ids"))
  ∨ (is_Some (TaskInfo.metadata t !! "downstream_task_ids")
     ∧ TaskInfo.downstream_task_ids t = Raise CheckError).
Proof.
  intros Hbad. unfold TaskInfo.downstream_task_ids.
  destruct (TaskInfo.metadata t !! "downstream_task_ids") as [v|] eqn:Hmd.
  - right. split; [by eexists|].
    rewrite (getitem_present _ _ _ Hmd). simpl.
    apply is_list_str_fails. intros ids ->. by destruct (Hbad ids).
  - left. split; [done|]. by rewrite getitem_missing.
Qed.

Lemma downstream_task_ids_fails_witness :
  TaskInfo.downstream_task_ids Sample.bare = Raise (KeyError "downstream_task_ids")
  ∧ TaskInfo.downstream_task_ids
      (TaskInfo.mk "http://airflow:8080" "etl_dag" "extract"
         {[ "downstream_task_ids" := PyList [PyStr "load"; PyInt 7] ]})
    = Raise CheckError.
Proof.
  split.
  - destruct (downstream_task_ids_fails Sample.bare) as [[_ H]|[[v Hv] _]].
    + intros ids. discriminate.
    + exact H.
    + discriminate Hv.
  - match goal with |- TaskInfo.downstream_task_ids ?t = _ =>
      destruct (downstream_task_ids_fails t) as [[Hv _]|[_ H]]
    end.
    + intros [|id [|id' ids]]; discriminate.
    + discriminate Hv.
    + exact H.
Defined.

(** C2, at the input where the code departs from it: a dag record whose
    ["file_token"] is the number 5.  [file_token] hands the number back
    instead of raising. *)
Theorem file_token_returns_non_string :
  DagInfo.metadata Sample.numeric_token_dag !! "file_token" = Some (PyInt 5)
  ∧ is_str (PyInt 5) = false
  ∧ DagInfo.file_token Sample.numeric_token_dag = Return (PyInt 5).
Proof. repeat split. Qed.

(** ** Construction of a binding *)

(** C1, as the code has it.  Constructing a binding never raises and
    stores the task record, the handle and the flag exactly as passed; the
    handle is not compared with the record.  Hence a binding's handle
    names its record's dag and task exactly when the caller passed a
    handle that does. *)
Theorem binding_stores_fields_unchecked
    (ti : TaskInfo.t) (th : TaskHandle.t) (m : option bool) :
  ∃ b : MappedAirflowTaskData.t,
    MappedAirflowTaskData.new ti th m = Return b
    ∧ MappedAirflowTaskData.task_info b = ti
    ∧ MappedAirflowTaskData.task_handle b = th
    ∧ MappedAirflowTaskData.migrated b = m
    ∧ ((TaskHandle.dag_id (MappedAirflowTaskData.task_handle b)
        = TaskInfo.dag_id (MappedAirflowTaskData.task_info b)
        ∧ TaskHandle.task_id (MappedAirflowTaskData.task_handle b)
          = TaskInfo.task_id (MappedAirflowTaskData.task_info b))
       ↔ (TaskHandle.dag_id th = TaskInfo.dag_id ti
          ∧ TaskHandle.task_id th = TaskInfo.task_id ti)).
Proof. eexists. split; [reflexivity|]. simpl. tauto. Qed.

(** C1 fails as stated: the binding of the [load] task of [etl_dag] to the
    handle of [ml_dag]'s [train] is constructed, and in it neither the dag
    id nor the task id of the handle is the one of the record. *)
Lemma binding_mismatch_is_constructed :
  ∃ b : MappedAirflowTaskData.t,
    MappedAirflowTaskData.new Sample.load Sample.other_handle None = Return b
    ∧ TaskHandle.dag_id (MappedAirflowTaskData.task_handle b)
      ≠ TaskInfo.dag_id (MappedAirflowTaskData.task_info b)
    ∧ TaskHandle.task_id (MappedAirflowTaskData.task_handle b)
      ≠ TaskInfo.task_id (MappedAirflowTaskData.task_info b).
Proof. eexists. split; [reflexivity|]. split; discriminate. Qed.

(** ** The derived map of mapped tasks *)

Section AllMappedTasks.
Import KeyScopedDataItem SerializedAirflowDefinitionsData.

Implicit Types (item : KeyScopedDataItem.t) (items : list KeyScopedDataItem.t).
Implicit Types (d : gmap AssetKey (list MappedAirflowTaskData.t)) (k : AssetKey).

(** One pass over [items] starting from the dict [d]: a key is answered
    by the last item that carries it, and by [d] when no item does. *)
Lemma store_items_lookup items d k :
  foldl (λ d item, <[asset_key item := mapped_tasks item]> d) d items !! k
  = match last (filter (λ item, asset_key item = k) items) with
    | Some item => Some (mapped_tasks item)
    | None => d !! k
    end.
Proof.
  revert d. induction items as [|x items IH]; intros d; [done|].
  simpl. rewrite IH, filter_cons. case_decide as Hk.
  - rewrite last_cons. destruct (last _); [done|].
    subst k. apply lookup_insert_eq.
  - destruct (last _); [done|]. by apply lookup_insert_ne.
Qed.

Lemma all_mapped_tasks_lookup (e : SerializedAirflowDefinitionsData.t) k :
  all_mapped_tasks e !! k
  = mapped_tasks
      <$> last (filter (λ item, asset_key item = k) (key_scoped_data_items e)).
Proof.
  unfold all_mapped_tasks. rewrite store_items_lookup.
  destruct (last _); [done|]. apply lookup_empty.
Qed.

(** No later item under the key of [item]: [item] is the last one. *)
Lemma last_with_key before item after :
  asset_key item ∉ asset_key <$> after →
  last (filter (λ i, asset_key i = asset_key item) (before ++ item :: after))
  = Some item.
Proof.
  intros Hlater. rewrite filter_app, filter_cons_True by done.
  assert (filter (λ i, asset_key i = asset_key item) after = []) as ->.
  { induction after as [|y after IH]; [done|].
    rewrite fmap_cons, not_elem_of_cons in Hlater. destruct Hlater as [Hy Hafter].
    rewrite filter_cons_False by done. by apply IH. }
  apply last_snoc.
Qed.

Lemma all_mapped_tasks_last (e : SerializedAirflowDefinitionsData.t)
    before item after :
  key_scoped_data_items e = before ++ item :: after →
  asset_key item ∉ asset_key <$> after →
  all_mapped_tasks e !! asset_key item = Some (mapped_tasks item).
Proof.
  intros Hitems Hlater.
  by rewrite all_mapped_tasks_lookup, Hitems, last_with_key.
Qed.

Lemma all_mapped_tasks_no_item (e : SerializedAirflowDefinitionsData.t) k :
  k ∉ asset_key <$> key_scoped_data_items e → all_mapped_tasks e !! k = None.
Proof.
  intros Hk. rewrite all_mapped_tasks_lookup.
  destruct (last _) as [item|] eqn:Hlast; [|done].
  apply last_Some_elem_of, list_elem_of_filter in Hlast as [<- Hin].
  destruct Hk. by apply list_elem_of_fmap_2.
Qed.
End AllMappedTasks.

(** C4. [all_mapped_tasks] is one pass over [key_scoped_data_items] in
    list order: every asset key is answered by the [mapped_tasks] of the
    last item that carries it.  So of two items with the same key the
    later one overwrites the earlier one; when the keys are pairwise
    distinct each key is sent to exactly its item's list; and a key
    carried by no item has no entry. *)
Theorem all_mapped_tasks_later_overwrites (e : SerializedAirflowDefinitionsData.t) :
  let items := SerializedAirflowDefinitionsData.key_scoped_data_items e in
  let key := KeyScopedDataItem.asset_key in
  let tasks := KeyScopedDataItem.mapped_tasks in
  let derived := SerializedAirflowDefinitionsData.all_mapped_tasks e in
  (∀ k : AssetKey,
     derived !! k = tasks <$> last (filter (λ item, key item = k) items))
  ∧ (∀ l1 earlier l2 later l3,
       items = l1 ++ earlier :: l2 ++ later :: l3 →
       key earlier = key later →
       key later ∉ key <$> l3 →
       derived !! key earlier = Some (tasks later))
  ∧ (NoDup (key <$> items) →
     ∀ item, item ∈ items → derived !! key item = Some (tasks item))
  ∧ (∀ k : AssetKey, k ∉ key <$> items → derived !! k = None).
Proof.
  intros items key tasks derived. subst derived key tasks.
  split; [|split; [|split]].
  - intros k. apply all_mapped_tasks_lookup.
  - intros l1 earlier l2 later l3 Hitems Hkey Hlater. rewrite Hkey.
    apply (all_mapped_tasks_last e (l1 ++ earlier :: l2) later l3); [|done].
    subst items. by rewrite Hitems, <-app_assoc.
  - intros Hnodup item Hin.
    destruct (list_elem_of_split _ _ Hin) as (before & after & Hitems).
    apply (all_mapped_tasks_last e before item after); [done|].
    subst items. rewrite Hitems, fmap_app, fmap_cons in Hnodup.
    apply NoDup_app in Hnodup as (_ & _ & Hnodup).
    by apply NoDup_cons in Hnodup as [Hnotin _].
  - intros k. apply all_mapped_tasks_no_item.
Qed.

Lemma all_mapped_tasks_later_overwrites_witness :
  SerializedAirflowDefinitionsData.all_mapped_tasks Sample.envelope !! Sample.table
  = Some [Sample.load_binding].
Proof.
  apply (proj1 (proj2 (all_mapped_tasks_later_overwrites Sample.envelope))
           [] (KeyScopedDataItem.mk Sample.table [Sample.extract_binding])
           [KeyScopedDataItem.mk Sample.staging []]
           (KeyScopedDataItem.mk Sample.table [Sample.load_binding]) []).
  - reflexivity.
  - reflexivity.
  - simpl. apply not_elem_of_nil.
Defined.

(** C9. Nothing is filtered out: an item whose [mapped_tasks] list is
    empty, under a key that no later item repeats, leaves its key in
    [all_mapped_tasks], mapped to the empty list. *)
Theorem all_mapped_tasks_keeps_empty_list
    (e : SerializedAirflowDefinitionsData.t)
    (before : list KeyScopedDataItem.t) (item : KeyScopedDataItem.t)
    (after : list KeyScopedDataItem.t) :
  SerializedAirflowDefinitionsData.key_scoped_data_items e = before ++ item :: after →
  KeyScopedDataItem.mapped_tasks item = [] →
  KeyScopedDataItem.asset_key item ∉ KeyScopedDataItem.asset_key <$> after →
  KeyScopedDataItem.asset_key item
    ∈ dom (SerializedAirflowDefinitionsData.all_mapped_tasks e)
  ∧ SerializedAirflowDefinitionsData.all_mapped_tasks e
      !! KeyScopedDataItem.asset_key item = Some [].
Proof.
  intros Hitems Hempty Hlater.
  pose proof (all_mapped_tasks_last e before item after Hitems Hlater) as Hget.
  rewrite Hempty in Hget. split; [|done]. by apply elem_of_dom_2 in Hget.
Qed.

Lemma all_mapped_tasks_keeps_empty_list_witness :
  Sample.staging ∈ dom (SerializedAirflowDefinitionsData.all_mapped_tasks Sample.envelope)
  ∧ SerializedAirflowDefinitionsData.all_mapped_tasks Sample.envelope !! Sample.staging
    = Some [].
Proof.
  apply (all_mapped_tasks_keeps_empty_list Sample.envelope
           [KeyScopedDataItem.mk Sample.table [Sample.extract_binding]]
           (KeyScopedDataItem.mk Sample.staging [])
           [KeyScopedDataItem.mk Sample.table [Sample.load_binding]]).
  - reflexivity.
  - reflexivity.
  - simpl. intros Hin. apply list_elem_of_singleton in Hin. discriminate Hin.
Defined.

(** ** Lookup of a dag snapshot *)




(** ** Task handles as keys *)

Section TaskHandleKey.
Context (hash_str : string → Z) (hash_tuple : list Z → Z).

Lemma TaskHandle_eqb_eq (a b : TaskHandle.t) :
  TaskHandle.eqb a b = true ↔ a = b.
Proof.
  unfold TaskHandle.eqb. rewrite andb_true_iff, !String.eqb_eq.
  destruct a, b; simpl. split; [by intros [-> ->] | by intros [= -> ->]].
Qed.

(** C8. Two task handles are equal exactly when their dag ids and their
    task ids are equal; equal handles have the same hash; and a dict
    answers the same for either of them. *)
Theorem TaskHandle_structural_eq_hash (a b : TaskHandle.t) :
  (TaskHandle.eqb a b = true
   ↔ TaskHandle.dag_id a = TaskHandle.dag_id b
     ∧ TaskHandle.task_id a = TaskHandle.task_id b)
  ∧ (TaskHandle.eqb a b = true →
     TaskHandle.hash hash_str hash_tuple a = TaskHandle.hash hash_str hash_tuple b)
  ∧ (TaskHandle.eqb a b = true →
     ∀ (V : Type) (d : list (TaskHandle.t * V)),
       TaskHandle.dict_get hash_str hash_tuple d a
       = TaskHandle.dict_get hash_str hash_tuple d b).
Proof.
  split; [|split].
  - unfold TaskHandle.eqb. by rewrite andb_true_iff, !String.eqb_eq.
  - by intros ->%TaskHandle_eqb_eq.
  - by intros ->%TaskHandle_eqb_eq.
Qed.
End TaskHandleKey.

Lemma TaskHandle_structural_eq_hash_witness :
  TaskHandle.hash Sample.hash_str Sample.hash_tuple (TaskHandle.mk "etl_dag" "load")
  = TaskHandle.hash Sample.hash_str Sample.hash_tuple Sample.load_handle
  ∧ TaskHandle.dict_get Sample.hash_str Sample.hash_tuple
      [(Sample.other_handle, 1%nat); (Sample.load_handle, 2%nat)]
      (TaskHandle.mk "etl_dag" "load")
    = Some 2%nat.
Proof.
  pose proof (TaskHandle_structural_eq_hash Sample.hash_str Sample.hash_tuple
                (TaskHandle.mk "etl_dag" "load") Sample.load_handle)
    as (_ & Hhash & Hget).
  split.
  - apply Hhash. reflexivity.
  - rewrite (Hget eq_refl). reflexivity.
Defined.


(** * Further properties of the accessors *)

(** ** URLs *)

Lemma fstring_url (w d : string) : fstring [w; "/dags/"; d] = w +:+ "/dags/" +:+ d.
Proof. reflexivity. Qed.

Lemma url_pieces_inj (w d d' : string) :
  fstring [w; "/dags/"; d] = fstring [w; "/dags/"; d'] → d = d'.
Proof.
  rewrite !fstring_url. intros Heq.
  apply (inj (String.append w)) in Heq.
  by apply (inj (String.append "/dags/")) in Heq.
Qed.

(** X1. The link of a task to its dag is the link of the dag itself: a
    task record and a dag record with the same web server URL and the same
    dag id have [dag_url] equal to [url], whatever the task id is. *)
Theorem task_dag_url_is_dag_url (t : TaskInfo.t) (d : DagInfo.t) :
  TaskInfo.webserver_url t = DagInfo.webserver_url d →
  TaskInfo.dag_id t = DagInfo.dag_id d →
  TaskInfo.dag_url t = DagInfo.url d.
Proof.
  intros Hw Hd. unfold TaskInfo.dag_url, DagInfo.url. by rewrite Hw, Hd.
Qed.

Lemma task_dag_url_is_dag_url_witness :
  TaskInfo.dag_url Sample.extract = DagInfo.url Sample.etl_dag_info.
Proof.
  apply (task_dag_url_is_dag_url Sample.extract Sample.etl_dag_info); reflexivity.
Defined.

(** X2. On one web server the URL tells the dags apart: two task records
    (or two dag records) with the same web server URL and the same URL
    have the same dag id. *)
Theorem url_determines_dag_id :
  (∀ t t' : TaskInfo.t,
     TaskInfo.webserver_url t = TaskInfo.webserver_url t' →
     TaskInfo.dag_url t = TaskInfo.dag_url t' →
     TaskInfo.dag_id t = TaskInfo.dag_id t')
  ∧ (∀ d d' : DagInfo.t,
       DagInfo.webserver_url d = DagInfo.webserver_url d' →
       DagInfo.url d = DagInfo.url d' →
       DagInfo.dag_id d = DagInfo.dag_id d').
Proof.
  split.
  - intros t t' Hw. unfold TaskInfo.dag_url. rewrite Hw. intros [= Hurl].
    by apply url_pieces_inj in Hurl.
  - intros d d' Hw. unfold DagInfo.url. rewrite Hw. intros [= Hurl].
    by apply url_pieces_inj in Hurl.
Qed.

Lemma url_determines_dag_id_witness :
  TaskInfo.dag_id Sample.extract = TaskInfo.dag_id Sample.load.
Proof.
  apply (proj1 url_determines_dag_id Sample.extract Sample.load); reflexivity.
Defined.

(** ** Reading the metadata *)

(** X4. [downstream_task_ids] returns exactly when the metadata entry
    ["downstream_task_ids"] is a list of strings (the empty list
    included), and what it returns is that entry, unchanged. *)
Theorem downstream_task_ids_returns_iff (t : TaskInfo.t) (v : PyVal) :
  TaskInfo.downstream_task_ids t = Return v
  ↔ TaskInfo.metadata t !! "downstream_task_ids" = Some v
    ∧ ∃ ids : list string, v = PyList (PyStr <$> ids).
Proof.
  split.
  - unfold TaskInfo.downstream_task_ids, getitem.
    destruct (TaskInfo.metadata t !! "downstream_task_ids") as [w|]; [|discriminate].
    simpl. destruct w as [| | | |items|]; try discriminate. simpl.
    destruct (forallb is_str items) eqn:Hall; [|discriminate].
    intros [= <-]. split; [done|].
    apply forallb_is_str in Hall as [ids ->]. by exists ids.
  - intros [Hmd [ids ->]]. by apply downstream_task_ids_ok.
Qed.

(** X5. Only the one key is read.  Adding, replacing or removing any
    other metadata entry changes neither [downstream_task_ids] nor
    [file_token], be it their value or their exception. *)
Theorem accessors_ignore_other_keys :
  (∀ (w dag task : string) (md : gmap string PyVal) (key : string) (v : PyVal),
     key ≠ "downstream_task_ids" →
     TaskInfo.downstream_task_ids (TaskInfo.mk w dag task (<[key := v]> md))
     = TaskInfo.downstream_task_ids (TaskInfo.mk w dag task md)
     ∧ TaskInfo.downstream_task_ids (TaskInfo.mk w dag task (delete key md))
       = TaskInfo.downstream_task_ids (TaskInfo.mk w dag task md))
  ∧ (∀ (w dag : string) (md : gmap string PyVal) (key : string) (v : PyVal),
       key ≠ "file_token" →
       DagInfo.file_token (DagInfo.mk w dag (<[key := v]> md))
       = DagInfo.file_token (DagInfo.mk w dag md)
       ∧ DagInfo.file_token (DagInfo.mk w dag (delete key md))
         = DagInfo.file_token (DagInfo.mk w dag md)).
Proof.
  split; intros; unfold TaskInfo.downstream_task_ids, DagInfo.file_token, getitem;
    simpl; by rewrite lookup_insert_ne, lookup_delete_ne.
Qed.

Lemma accessors_ignore_other_keys_witness :
  TaskInfo.downstream_task_ids
    (TaskInfo.mk "http://airflow:8080" "etl_dag" "extract"
       (<["retries" := PyInt 3]> (TaskInfo.metadata Sample.extract)))
  = Return (PyList [PyStr "load"]).
Proof.
  rewrite (proj1 (proj1 accessors_ignore_other_keys
                    "http://airflow:8080" "etl_dag" "extract"
                    (TaskInfo.metadata Sample.extract) "retries" (PyInt 3)
                    ltac:(discriminate))).
  reflexivity.
Defined.

(** * Further properties of the derived map *)

Section DerivedMap.
Import KeyScopedDataItem SerializedAirflowDefinitionsData.

Implicit Types (item : KeyScopedDataItem.t) (items : list KeyScopedDataItem.t).
Implicit Types (k : AssetKey) (dags : gmap string SerializedDagData.t).

Lemma all_mapped_tasks_snoc items item dags :
  all_mapped_tasks (mk (items ++ [item]) dags)
  = <[asset_key item := mapped_tasks item]> (all_mapped_tasks (mk items dags)).
Proof. unfold all_mapped_tasks. simpl. by rewrite foldl_app. Qed.

(** The comprehension is [list_to_map] on the items read backwards: stdpp
    lets the first pair of a key win, Python the last. *)
Lemma all_mapped_tasks_list_to_map items dags :
  all_mapped_tasks (mk items dags)
  = list_to_map (reverse ((λ item, (asset_key item, mapped_tasks item)) <$> items)).
Proof.
  induction items as [|item items IH] using rev_ind; [done|].
  by rewrite all_mapped_tasks_snoc, IH, fmap_snoc, reverse_snoc.
Qed.

Lemma all_mapped_tasks_distinct (e : SerializedAirflowDefinitionsData.t) item :
  NoDup (asset_key <$> key_scoped_data_items e) →
  item ∈ key_scoped_data_items e →
  all_mapped_tasks e !! asset_key item = Some (mapped_tasks item).
Proof.
  intros Hnodup Hin.
  destruct (list_elem_of_split _ _ Hin) as (before & after & Hitems).
  apply (all_mapped_tasks_last e before item after); [done|].
  rewrite Hitems, fmap_app, fmap_cons in Hnodup.
  apply NoDup_app in Hnodup as (_ & _ & Hnodup).
  by apply NoDup_cons in Hnodup as [Hnotin _].
Qed.

(** X6. Every entry of [all_mapped_tasks] is one item of the list: the
    list found under a key is the [mapped_tasks] of an item with that key,
    never a merge of several items and never a list made up. *)
Theorem all_mapped_tasks_entry_is_item
    (e : SerializedAirflowDefinitionsData.t) k
    (tasks : list MappedAirflowTaskData.t) :
  all_mapped_tasks e !! k = Some tasks →
  ∃ item, item ∈ key_scoped_data_items e
          ∧ asset_key item = k ∧ mapped_tasks item = tasks.
Proof.
  rewrite all_mapped_tasks_lookup, fmap_Some. intros (item & Hlast & ->).
  apply last_Some_elem_of, list_elem_of_filter in Hlast as [Hk Hin].
  by exists item.
Qed.

Lemma all_mapped_tasks_entry_is_item_witness :
  ∃ item, item ∈ Sample.items
          ∧ asset_key item = Sample.table ∧ mapped_tasks item = [Sample.load_binding].
Proof.
  apply (all_mapped_tasks_entry_is_item Sample.envelope Sample.table
           [Sample.load_binding]).
  vm_compute. reflexivity.
Defined.

Lemma all_mapped_tasks_dom (e : SerializedAirflowDefinitionsData.t) :
  dom (all_mapped_tasks e) = list_to_set (asset_key <$> key_scoped_data_items e).
Proof.
  apply set_eq. intros k. rewrite elem_of_dom, elem_of_list_to_set.
  rewrite all_mapped_tasks_lookup, fmap_is_Some. split.
  - intros [item Hlast].
    apply last_Some_elem_of, list_elem_of_filter in Hlast as [<- Hin].
    by apply list_elem_of_fmap_2.
  - intros (item & -> & Hin)%list_elem_of_fmap. apply last_is_Some. intros Hnone.
    assert (item ∈ filter (λ i, asset_key i = asset_key item) (key_scoped_data_items e))
      as Hfound by by apply list_elem_of_filter.
    rewrite Hnone in Hfound. by apply not_elem_of_nil in Hfound.
Qed.

Lemma size_list_to_set_le (keys : list AssetKey) :
  size (list_to_set keys : gset AssetKey) ≤ length keys.
Proof.
  induction keys as [|k keys IH]; [done|].
  rewrite list_to_set_cons, size_union_alt, size_singleton. simpl.
  assert (size (list_to_set keys ∖ {[k]} : gset AssetKey)
          ≤ size (list_to_set keys : gset AssetKey)) as Hdiff; [|lia].
  apply subseteq_size, subseteq_difference_l. done.
Qed.

Lemma size_list_to_set_NoDup (keys : list AssetKey) :
  size (list_to_set keys : gset AssetKey) = length keys → NoDup keys.
Proof.
  induction keys as [|k keys IH]; [constructor|].
  rewrite list_to_set_cons. simpl. intros Hsize.
  pose proof (size_list_to_set_le keys) as Hle.
  destruct (decide (k ∈ keys)) as [Hin|Hnotin].
  - assert ({[k]} ∪ list_to_set keys = (list_to_set keys : gset AssetKey)) as Heq
      by by apply subseteq_union_1_L, singleton_subseteq_l, elem_of_list_to_set.
    rewrite Heq in Hsize. lia.
  - rewrite size_union, size_singleton in Hsize
      by by apply disjoint_singleton_l; rewrite elem_of_list_to_set.
    constructor; [done|]. apply IH. lia.
Qed.

(** X7. The keys of [all_mapped_tasks] are exactly the asset keys that
    occur in [key_scoped_data_items].  The map therefore never has more
    entries than there are items, and has as many exactly when no asset
    key is listed twice. *)
Theorem all_mapped_tasks_keys_and_size (e : SerializedAirflowDefinitionsData.t) :
  dom (all_mapped_tasks e) = list_to_set (asset_key <$> key_scoped_data_items e)
  ∧ size (all_mapped_tasks e) ≤ length (key_scoped_data_items e)
  ∧ (size (all_mapped_tasks e) = length (key_scoped_data_items e)
     ↔ NoDup (asset_key <$> key_scoped_data_items e)).
Proof.
  assert (size (all_mapped_tasks e)
          = size (list_to_set (asset_key <$> key_scoped_data_items e) : gset AssetKey))
    as Hsize by by rewrite <-all_mapped_tasks_dom, size_dom.
  split; [apply all_mapped_tasks_dom|]. rewrite Hsize.
  rewrite <-(length_fmap asset_key (key_scoped_data_items e)).
  split; [apply size_list_to_set_le|]. split.
  - apply size_list_to_set_NoDup.
  - apply size_list_to_set.
Qed.

(** X8. Items listed one group after the other: the map of [l1 ++ l2] is
    the map of [l2] completed, for the keys [l2] does not carry, by the
    map of [l1].  The [dag_datas] play no part. *)
Theorem all_mapped_tasks_app (l1 l2 : list KeyScopedDataItem.t) dags dags1 dags2 :
  all_mapped_tasks (mk (l1 ++ l2) dags)
  = all_mapped_tasks (mk l2 dags2) ∪ all_mapped_tasks (mk l1 dags1).
Proof.
  apply map_eq. intros k. rewrite lookup_union, !all_mapped_tasks_lookup. simpl.
  rewrite filter_app, last_app.
  by destruct (last (filter _ l2)), (last (filter _ l1)).
Qed.

(** X9. Without a repeated asset key the order of the items is
    irrelevant: two lists that are permutations of each other give the
    same map. *)
Theorem all_mapped_tasks_order_irrelevant
    (items items' : list KeyScopedDataItem.t) dags dags' :
  NoDup (asset_key <$> items) →
  items ≡ₚ items' →
  all_mapped_tasks (mk items dags) = all_mapped_tasks (mk items' dags').
Proof.
  intros Hnodup Hperm.
  assert (NoDup (asset_key <$> items')) as Hnodup' by by rewrite <-Hperm.
  apply map_eq. intros k.
  destruct (decide (k ∈ asset_key <$> items)) as [Hin|Hnotin].
  - apply list_elem_of_fmap in Hin as (item & -> & Hin).
    rewrite (all_mapped_tasks_distinct (mk items dags) item) by done.
    symmetry. apply (all_mapped_tasks_distinct (mk items' dags') item); [done|].
    simpl. by rewrite <-Hperm.
  - rewrite !all_mapped_tasks_no_item; [done| simpl; by rewrite <-Hperm| done].
Qed.

Lemma all_mapped_tasks_order_irrelevant_witness :
  all_mapped_tasks
    (mk [KeyScopedDataItem.mk Sample.table [Sample.load_binding];
         KeyScopedDataItem.mk Sample.staging []] ∅)
  = all_mapped_tasks
      (mk [KeyScopedDataItem.mk Sample.staging [];
           KeyScopedDataItem.mk Sample.table [Sample.load_binding]] ∅).
Proof.
  apply all_mapped_tasks_order_irrelevant.
  - simpl. apply NoDup_cons. split; [|apply NoDup_singleton].
    intros Hin. apply list_elem_of_singleton in Hin. discriminate Hin.
  - apply Permutation_swap.
Defined.

(** X10. Without a repeated asset key nothing is lost: the items can be
    rebuilt from the map, up to their order. *)
Theorem all_mapped_tasks_round_trip (e : SerializedAirflowDefinitionsData.t) :
  NoDup (asset_key <$> key_scoped_data_items e) →
  (λ entry, KeyScopedDataItem.mk entry.1 entry.2) <$> map_to_list (all_mapped_tasks e)
  ≡ₚ key_scoped_data_items e.
Proof.
  destruct e as [items dags]. simpl. intros Hnodup.
  rewrite all_mapped_tasks_list_to_map, map_to_list_to_map.
  - rewrite reverse_Permutation, <-list_fmap_compose.
    assert ((λ entry, KeyScopedDataItem.mk entry.1 entry.2)
              ∘ (λ item, (asset_key item, mapped_tasks item)) <$> items = items)
      as ->; [|done].
    rewrite <-(list_fmap_id items) at 2. apply list_fmap_ext. by intros _ [] _.
  - by rewrite fmap_reverse, <-list_fmap_compose, reverse_Permutation.
Qed.

Lemma all_mapped_tasks_round_trip_witness :
  (λ entry, KeyScopedDataItem.mk entry.1 entry.2)
    <$> map_to_list
          (all_mapped_tasks
             (mk [KeyScopedDataItem.mk Sample.table [Sample.load_binding];
                  KeyScopedDataItem.mk Sample.staging []] ∅))
  ≡ₚ [KeyScopedDataItem.mk Sample.table [Sample.load_binding];
      KeyScopedDataItem.mk Sample.staging []].
Proof.
  apply (all_mapped_tasks_round_trip
           (mk [KeyScopedDataItem.mk Sample.table [Sample.load_binding];
                KeyScopedDataItem.mk Sample.staging []] ∅)).
  simpl. apply NoDup_cons. split; [|apply NoDup_singleton].
  intros Hin. apply list_elem_of_singleton in Hin. discriminate Hin.
Defined.

(** X11. An item whose asset key is listed again further down leaves no
    trace: the map is the one of the list without that item. *)
Theorem all_mapped_tasks_shadowed_item
    (l1 : list KeyScopedDataItem.t) item (l2 : list KeyScopedDataItem.t) dags :
  asset_key item ∈ asset_key <$> l2 →
  all_mapped_tasks (mk (l1 ++ item :: l2) dags) = all_mapped_tasks (mk (l1 ++ l2) dags).
Proof.
  intros (later & Hkey & Hin)%list_elem_of_fmap.
  apply map_eq. intros k. rewrite !all_mapped_tasks_lookup. simpl.
  rewrite !filter_app, filter_cons. case_decide as Hk; [|done].
  rewrite !last_app, last_cons.
  destruct (last (filter _ l2)) eqn:Hlast; [done|].
  apply last_None in Hlast.
  assert (later ∈ filter (λ i, asset_key i = k) l2) as Hfound.
  { apply list_elem_of_filter. split; [congruence|done]. }
  rewrite Hlast in Hfound. by apply not_elem_of_nil in Hfound.
Qed.

Lemma all_mapped_tasks_shadowed_item_witness :
  all_mapped_tasks Sample.envelope
  = all_mapped_tasks
      (mk [KeyScopedDataItem.mk Sample.staging [];
           KeyScopedDataItem.mk Sample.table [Sample.load_binding]]
          {[ "etl_dag" := Sample.etl_dag ]}).
Proof.
  apply (all_mapped_tasks_shadowed_item []
           (KeyScopedDataItem.mk Sample.table [Sample.extract_binding])
           [KeyScopedDataItem.mk Sample.staging [];
            KeyScopedDataItem.mk Sample.table [Sample.load_binding]]).
  simpl. apply list_elem_of_further, list_elem_of_here.
Defined.
End DerivedMap.
